(** * Semihosting host I/O and gcov coverage export (STM32F103 demo)

    A shallow embedding of [semihost.c], [semihost.h] and [coverage.c].

    The target talks to the debug host through one trap instruction.  The
    host is not part of the program, so it is a parameter here: a state
    type [H] and a step function that answers one request with the two
    reply registers and the target memory as the host left it.  Target code
    is written in ExtLib's state monad over a [World] that holds the host
    state, the byte memory and the log of requests issued so far. *)

From Stdlib Require Import ZArith String List Bool Lia.
From ExtLib Require Import Structures.Monad Structures.MonadState.
From ExtLib Require Import Data.Monads.StateMonad.
Import ListNotations.
Import MonadNotation.
Local Open Scope Z_scope.
Local Open Scope monad_scope.

Set Implicit Arguments.

(** ** Machine integers (ILP32, little endian) *)

(** [(uint32_t)x] *)
Definition u32 (x : Z) : Z := x mod 2 ^ 32.

(** [(int32_t)x]: the low 32 bits read as two's complement. *)
Definition s32 (x : Z) : Z :=
  let y := u32 x in if y <? 2 ^ 31 then y else y - 2 ^ 32.

(** [(char)x]; plain [char] is unsigned in the Arm EABI. *)
Definition c8 (x : Z) : Z := x mod 2 ^ 8.

(** The low and the high word of a 64-bit value. *)
Definition lo32 (x : Z) : Z := Z.land x (Z.ones 32).
Definition hi32 (x : Z) : Z := Z.shiftr x 32.

Definition NULL : Z := 0.

(** ** Target memory *)

(** Byte-addressed; every cell is read modulo 256. *)
Definition Mem : Type := Z -> Z.

Definition load8 (m : Mem) (a : Z) : Z := m a mod 2 ^ 8.

Definition load32 (m : Mem) (a : Z) : Z :=
  Z.lor (load8 m a)
    (Z.lor (Z.shiftl (load8 m (a + 1)) 8)
       (Z.lor (Z.shiftl (load8 m (a + 2)) 16)
          (Z.shiftl (load8 m (a + 3)) 24))).

Definition store8 (m : Mem) (a v : Z) : Mem :=
  fun x => if x =? a then v mod 2 ^ 8 else m x.

Definition store32 (m : Mem) (a v : Z) : Mem :=
  store8 (store8 (store8 (store8 m a v)
                    (a + 1) (Z.shiftr v 8))
            (a + 2) (Z.shiftr v 16))
    (a + 3) (Z.shiftr v 24).

(** A [const char*] argument: the address and the characters before the
    terminating NUL. *)
Record cstring : Type := CStr { cs_addr : Z; cs_chars : string }.

Definition strlen (s : cstring) : Z := Z.of_nat (String.length (cs_chars s)).

(** ** Requests *)

(** What the host finds behind the second argument register: the words of a
    stack-allocated argument block, or the register value itself for the
    commands that take a plain pointer or nothing. *)
Inductive ReqArg : Type :=
| ArgBlock (words : list Z)
| ArgWord (w : Z).

Record Request : Type := Req { rq_cmd : Z; rq_arg : ReqArg }.

(** The host's answer to one trap: registers r0 and r1 on resume, and the
    target memory after the host has written to it. *)
Record HostReply : Type := Reply { hr_r0 : Z; hr_r1 : Z; hr_mem : Mem }.

Record World (H : Type) : Type :=
  MkWorld { w_host : H; w_mem : Mem; w_trace : list Request }.

(** The requests a run has added to the log. *)
Definition issued {H : Type} (w w' : World H) : list Request :=
  skipn (length (w_trace w)) (w_trace w').

Definition count_cmd (c : Z) (l : list Request) : nat :=
  length (filter (fun r => rq_cmd r =? c) l).

(** ** semihost.h *)

Module Semihost.

(** Default file handles *)
Definition SEMIHOST_STDIN : Z := 0.
Definition SEMIHOST_STDOUT : Z := 1.
Definition SEMIHOST_STDERR : Z := 2.

Definition std_handles : list Z :=
  [SEMIHOST_STDIN; SEMIHOST_STDOUT; SEMIHOST_STDERR].

(** System heap information returned by [bSemihostGetHeapInfo] *)
Record Semihost_HeapInfo : Type := HeapInfo {
  pHeapBase : Z;
  pHeapLimit : Z;
  pStackBase : Z;
  pStackLimit : Z
}.

(** [*psInfo]: four pointer-sized fields at offsets 0, 4, 8 and 12. *)
Definition read_HeapInfo (m : Mem) (psInfo : Z) : Semihost_HeapInfo :=
  {| pHeapBase := load32 m psInfo;
     pHeapLimit := load32 m (psInfo + 4);
     pStackBase := load32 m (psInfo + 8);
     pStackLimit := load32 m (psInfo + 12) |}.

Definition write_HeapInfo (m : Mem) (psInfo : Z) (i : Semihost_HeapInfo) : Mem :=
  store32 (store32 (store32 (store32 m psInfo (pHeapBase i))
                      (psInfo + 4) (pHeapLimit i))
             (psInfo + 8) (pStackBase i))
    (psInfo + 12) (pStackLimit i).

(** ** semihost.c *)

(** Semihosting command numbers as defined by Arm *)
Definition SYS_OPEN : Z := 0x01.
Definition SYS_CLOSE : Z := 0x02.
Definition SYS_WRITEC : Z := 0x03.
Definition SYS_WRITE0 : Z := 0x04.
Definition SYS_WRITE : Z := 0x05.
Definition SYS_READ : Z := 0x06.
Definition SYS_READC : Z := 0x07.
Definition SYS_ISERROR : Z := 0x08.
Definition SYS_ISTTY : Z := 0x09.
Definition SYS_SEEK : Z := 0x0A.
Definition SYS_FLEN : Z := 0x0C.
Definition SYS_TMPNAM : Z := 0x0D.
Definition SYS_REMOVE : Z := 0x0E.
Definition SYS_RENAME : Z := 0x0F.
Definition SYS_CLOCK : Z := 0x10.
Definition SYS_TIME : Z := 0x11.
Definition SYS_SYSTEM : Z := 0x12.
Definition SYS_ERRNO : Z := 0x13.
Definition SYS_GET_CMDLINE : Z := 0x15.
Definition SYS_HEAPINFO : Z := 0x16.
Definition SYS_EXIT : Z := 0x18.
Definition SYS_ELAPSED : Z := 0x30.
Definition SYS_TICKFREQ : Z := 0x31.

Section Host.

Variable H : Type.
Variable hostStep : H -> Request -> Mem -> HostReply * H.

Local Abbreviation SH := (state (World H)).

(** Request semihosting operation from host: [bkpt 0xAB; bx lr].  The
    function is a pass-through: the host sees the command and the argument,
    and the caller gets r0 as the low and r1 as the high word. *)
Definition ullSemihostReqOp (ulCmd : Z) (ulArg : ReqArg) : SH Z :=
  w <- get ;;
  let rq := Req ulCmd ulArg in
  let (rep, h') := hostStep (w_host w) rq (w_mem w) in
  put (MkWorld h' (hr_mem rep) (w_trace w ++ [rq])) ;;
  ret (Z.lor (Z.shiftl (u32 (hr_r1 rep)) 32) (u32 (hr_r0 rep))).

(** Console I/O *)

Definition vSemihostWriteC (cChar : Z) : SH unit :=
  let aulArgs := [u32 (c8 cChar)] in
  _ <- ullSemihostReqOp SYS_WRITEC (ArgBlock aulArgs) ;;
  ret tt.

Definition vSemihostWrite0 (pszStr : cstring) : SH unit :=
  _ <- ullSemihostReqOp SYS_WRITE0 (ArgWord (u32 (cs_addr pszStr))) ;;
  ret tt.

Definition cSemihostReadC : SH Z :=
  r <- ullSemihostReqOp SYS_READC (ArgWord 0) ;;
  ret (c8 r).

(** Command line *)

Definition ulSemihostGetCmdline (pBuf ulSize : Z) : SH Z :=
  let aulArgs := [u32 pBuf; u32 ulSize] in
  ullResult <- ullSemihostReqOp SYS_GET_CMDLINE (ArgBlock aulArgs) ;;
  ret (u32 (if u32 ullResult =? 0 then Z.shiftr ullResult 32 else 0)).

Definition lSemihostSystem (pszCmd : cstring) : SH Z :=
  let aulArgs := [u32 (cs_addr pszCmd); u32 (strlen pszCmd)] in
  r <- ullSemihostReqOp SYS_SYSTEM (ArgBlock aulArgs) ;;
  ret (s32 r).

(** File I/O *)

Definition lSemihostOpen (pszPath : cstring) (ulMode : Z) : SH Z :=
  let aulArgs := [u32 (cs_addr pszPath); u32 ulMode; u32 (strlen pszPath)] in
  r <- ullSemihostReqOp SYS_OPEN (ArgBlock aulArgs) ;;
  ret (s32 r).

Definition bSemihostClose (lFile : Z) : SH bool :=
  let aulArgs := [u32 lFile] in
  r <- ullSemihostReqOp SYS_CLOSE (ArgBlock aulArgs) ;;
  ret (u32 r =? 0).

Definition lSemihostWrite (lFile pData ulLen : Z) : SH Z :=
  let aulArgs := [u32 lFile; u32 pData; u32 ulLen] in
  r <- ullSemihostReqOp SYS_WRITE (ArgBlock aulArgs) ;;
  ret (s32 r).

Definition lSemihostRead (lFile pBuf ulLen : Z) : SH Z :=
  let aulArgs := [u32 lFile; u32 pBuf; u32 ulLen] in
  r <- ullSemihostReqOp SYS_READ (ArgBlock aulArgs) ;;
  ret (s32 r).

Definition bSemihostSeek (lFile ulPos : Z) : SH bool :=
  let aulArgs := [u32 lFile; u32 ulPos] in
  r <- ullSemihostReqOp SYS_SEEK (ArgBlock aulArgs) ;;
  ret (u32 r =? 0).

Definition lSemihostGetFLen (lFile : Z) : SH Z :=
  let aulArgs := [u32 lFile] in
  r <- ullSemihostReqOp SYS_FLEN (ArgBlock aulArgs) ;;
  ret (s32 r).

Definition bSemihostIsTTY (lFile : Z) : SH bool :=
  let aulArgs := [u32 lFile] in
  r <- ullSemihostReqOp SYS_ISTTY (ArgBlock aulArgs) ;;
  ret (u32 r =? 1).

(** Error handling *)

Definition lSemihostGetErrno : SH Z :=
  r <- ullSemihostReqOp SYS_ERRNO (ArgWord 0) ;;
  ret (s32 r).

(** Filesystem operations *)

Definition lSemihostRemove (pszPath : cstring) : SH Z :=
  let aulArgs := [u32 (cs_addr pszPath); u32 (strlen pszPath)] in
  r <- ullSemihostReqOp SYS_REMOVE (ArgBlock aulArgs) ;;
  ret (s32 r).

Definition lSemihostRename (pszFrom pszTo : cstring) : SH Z :=
  let aulArgs := [u32 (cs_addr pszFrom); u32 (strlen pszFrom);
                  u32 (cs_addr pszTo); u32 (strlen pszTo)] in
  r <- ullSemihostReqOp SYS_RENAME (ArgBlock aulArgs) ;;
  ret (s32 r).

Definition bSemihostGetTmpnam (pszBuf ucId ulSize : Z) : SH bool :=
  let aulArgs := [u32 pszBuf; u32 (c8 ucId); u32 ulSize] in
  r <- ullSemihostReqOp SYS_TMPNAM (ArgBlock aulArgs) ;;
  ret (u32 r =? 0).

Definition bSemihostIsError (lStatus : Z) : SH bool :=
  let aulArgs := [u32 lStatus] in
  r <- ullSemihostReqOp SYS_ISERROR (ArgBlock aulArgs) ;;
  ret (negb (u32 r =? 0)).

(** Timing *)

Definition ulSemihostGetClock : SH Z :=
  r <- ullSemihostReqOp SYS_CLOCK (ArgWord 0) ;;
  ret (u32 r).

Definition ulSemihostGetTime : SH Z :=
  r <- ullSemihostReqOp SYS_TIME (ArgWord 0) ;;
  ret (u32 r).

Definition bSemihostGetElapsed (pullElapsed : Z) : SH bool :=
  r <- ullSemihostReqOp SYS_ELAPSED (ArgWord (u32 pullElapsed)) ;;
  ret (u32 r =? 0).

Definition ulSemihostGetTickFreq : SH Z :=
  r <- ullSemihostReqOp SYS_TICKFREQ (ArgWord 0) ;;
  ret (u32 r).

(** Miscellaneous *)

Definition bSemihostGetHeapInfo (psInfo : Z) : SH bool :=
  let aulArgs := [u32 psInfo] in
  _ <- ullSemihostReqOp SYS_HEAPINFO (ArgBlock aulArgs) ;;
  w <- get ;;
  let i := read_HeapInfo (w_mem w) psInfo in
  ret (negb (pHeapBase i =? NULL) && negb (pHeapLimit i =? NULL) &&
       (negb (pStackBase i =? NULL) && negb (pStackLimit i =? NULL))).

(** The record behind [psInfo] as the transport call leaves it, and what
    makes it valid. *)
Definition heap_after (psInfo : Z) (w : World H) : Semihost_HeapInfo :=
  read_HeapInfo
    (w_mem (execState
              (ullSemihostReqOp SYS_HEAPINFO (ArgBlock [u32 psInfo])) w))
    psInfo.

End Host.

Definition all_fields_set (i : Semihost_HeapInfo) : Prop :=
  pHeapBase i <> NULL /\ pHeapLimit i <> NULL /\
  pStackBase i <> NULL /\ pStackLimit i <> NULL.

End Semihost.

(** ** coverage.c *)

Module Coverage.
Import Semihost.

(** One chunk handed to a byte sink: buffer address and length in bytes. *)
Record Chunk : Type := MkChunk { ch_data : Z; ch_len : Z }.

(** What the coverage runtime does while it serialises the counters of one
    translation unit: it pushes a chunk to the sink, or it asks the
    allocator for a buffer and carries on with the pointer it got. *)
Inductive gcda_run : Type :=
| GcdaEnd
| GcdaDump (c : Chunk) (k : gcda_run)
| GcdaAlloc (size : Z) (k : Z -> gcda_run).

(** [struct gcov_info] is opaque to the pipeline; these are the two things
    the runtime does with it. *)
Record gcov_info : Type :=
  MkInfo { gi_filename : cstring; gi_data : gcda_run }.

Section Pipeline.

Variable H : Type.
Variable hostStep : H -> Request -> Mem -> HostReply * H.

(** The canonicalised filename encoding of the runtime, as the chunks it
    hands to the sink. *)
Variable gcfn_encoding : cstring -> list Chunk.

(** gcov info structures in FLASH memory, placed by the linker: the array
    from [__gcov_info_start] up to [__gcov_info_end]. *)
Variable __gcov_info : list gcov_info.

Local Abbreviation SH := (state (World H)).

(** [for (it = first; it != last; ++it) body(it);] *)
Fixpoint for_each {A : Type} (l : list A) (body : A -> SH unit) : SH unit :=
  match l with
  | [] => ret tt
  | x :: l' => body x ;; for_each l' body
  end.

(** Modelled from the spec: [__gcov_filename_to_gcfn] belongs to the
    compiler's coverage runtime (libgcov), which is not under src/.  The
    runtime is given a byte-sink callback and invokes it zero or more times
    with chunks of a canonicalised filename encoding. *)
Definition __gcov_filename_to_gcfn (pszFname : cstring)
    (dump_fn : Z -> Z -> Z -> SH unit) (pArg : Z) : SH unit :=
  for_each (gcfn_encoding pszFname)
    (fun c => dump_fn (ch_data c) (ch_len c) pArg).

(** Modelled from the spec: the data pass of the coverage runtime (libgcov,
    not under src/).  The runtime is given the byte-sink callback and the
    allocator callback and invokes the sink zero or more times with chunks
    of the record's serialised counters; what it does next may depend on
    the pointer the allocator returned. *)
Fixpoint gcda_pass (d : gcda_run) (dump_fn : Z -> Z -> Z -> SH unit)
    (allocate_fn : Z -> Z -> Z) (pArg : Z) : SH unit :=
  match d with
  | GcdaEnd => ret tt
  | GcdaDump c k =>
      dump_fn (ch_data c) (ch_len c) pArg ;;
      gcda_pass k dump_fn allocate_fn pArg
  | GcdaAlloc size k =>
      gcda_pass (k (allocate_fn size pArg)) dump_fn allocate_fn pArg
  end.

(** Modelled from the spec: [__gcov_info_to_gcda] belongs to the compiler's
    coverage runtime (libgcov), which is not under src/.  It drives a
    two-stage serialisation of one record: the filename record through the
    filename callback, then the data record through the sink and allocator
    callbacks. *)
Definition __gcov_info_to_gcda (info : gcov_info)
    (filename_fn : cstring -> Z -> SH unit)
    (dump_fn : Z -> Z -> Z -> SH unit)
    (allocate_fn : Z -> Z -> Z) (pArg : Z) : SH unit :=
  filename_fn (gi_filename info) pArg ;;
  gcda_pass (gi_data info) dump_fn allocate_fn pArg.

(** Callback: Transfer gcov information byte stream to target.  In the
    source [pArg] is the address of the caller's local [lFile] and the
    handle is read through it at every chunk.  The local lives on the
    stack, outside [Mem]; the embedding passes the value stored there.
    The two agree as long as nothing writes that word between the store
    and the read, that is, as long as the host leaves target memory alone
    while it serves the write requests ([Wire.leaves_memory_on]).  Facts
    that name the handle word of a write or of the close carry that
    condition; facts about counts, order, chunks and ranges do not need
    it. *)
Definition vDumpCb (pData uLength pArg : Z) : SH unit :=
  _ <- lSemihostWrite hostStep pArg pData uLength ;;
  ret tt.

(** Callback: Serialise filename to gfcn data stream *)
Definition vFilenameCb (pszFname : cstring) (pArg : Z) : SH unit :=
  __gcov_filename_to_gcfn pszFname vDumpCb pArg.

(** Callback: Allocate data buffer *)
Definition pAllocateCb (_ _ : Z) : Z := NULL.

(** Dump coverage data to a file.  [&lFile] is handed to the runtime and
    [lFile] is read again for the close; see [vDumpCb] for how the local
    is embedded. *)
Definition Coverage_vDump (pszFilename : cstring) : SH unit :=
  lFile <- lSemihostOpen hostStep pszFilename 5 (* wb *) ;;
  for_each __gcov_info
    (fun pIt => __gcov_info_to_gcda pIt vFilenameCb vDumpCb pAllocateCb lFile) ;;
  _ <- bSemihostClose hostStep lFile ;;
  ret tt.

End Pipeline.

(** The chunks one record emits when every allocation request is answered
    with [p]: those of the filename pass, then those of the data pass. *)
Fixpoint gcda_chunks (p : Z) (d : gcda_run) : list Chunk :=
  match d with
  | GcdaEnd => []
  | GcdaDump c k => c :: gcda_chunks p k
  | GcdaAlloc size k => gcda_chunks p (k p)
  end.

Definition filename_pass (enc : cstring -> list Chunk) (info : gcov_info)
  : list Chunk := enc (gi_filename info).

Definition data_pass (info : gcov_info) : list Chunk :=
  gcda_chunks NULL (gi_data info).

Definition record_chunks (enc : cstring -> list Chunk) (info : gcov_info)
  : list Chunk := filename_pass enc info ++ data_pass info.

(** The three kinds of request a dump issues. *)
Definition open_req (pszFilename : cstring) : Request :=
  Req SYS_OPEN
    (ArgBlock [u32 (cs_addr pszFilename); 5; u32 (strlen pszFilename)]).

Definition write_req (lFile : Z) (c : Chunk) : Request :=
  Req SYS_WRITE (ArgBlock [u32 lFile; u32 (ch_data c); u32 (ch_len c)]).

Definition close_req (lFile : Z) : Request :=
  Req SYS_CLOSE (ArgBlock [u32 lFile]).

End Coverage.

(** ** The operations of the host I/O layer, as one table *)

Module Layer.
Import Semihost.

(** One constructor per public function of [semihost.h], with its
    arguments. *)
Inductive Op : Type :=
| OpWriteC (cChar : Z)
| OpWrite0 (pszStr : cstring)
| OpReadC
| OpGetCmdline (pBuf ulSize : Z)
| OpSystem (pszCmd : cstring)
| OpOpen (pszPath : cstring) (ulMode : Z)
| OpClose (lFile : Z)
| OpWrite (lFile pData ulLen : Z)
| OpRead (lFile pBuf ulLen : Z)
| OpSeek (lFile ulPos : Z)
| OpIsTTY (lFile : Z)
| OpGetFLen (lFile : Z)
| OpGetErrno
| OpRemove (pszPath : cstring)
| OpRename (pszFrom pszTo : cstring)
| OpGetTmpnam (pszBuf ucId ulSize : Z)
| OpIsError (lStatus : Z)
| OpGetClock
| OpGetTime
| OpGetElapsed (pullElapsed : Z)
| OpGetTickFreq
| OpGetHeapInfo (psInfo : Z).

Section Call.

Variable H : Type.
Variable hostStep : H -> Request -> Mem -> HostReply * H.

Definition discard {A : Type} (c : state (World H) A) : state (World H) unit :=
  _ <- c ;; ret tt.

(** Calls the function an [Op] names and drops its result. *)
Definition call (op : Op) : state (World H) unit :=
  match op with
  | OpWriteC c => vSemihostWriteC hostStep c
  | OpWrite0 s => vSemihostWrite0 hostStep s
  | OpReadC => discard (cSemihostReadC hostStep)
  | OpGetCmdline b n => discard (ulSemihostGetCmdline hostStep b n)
  | OpSystem s => discard (lSemihostSystem hostStep s)
  | OpOpen p m => discard (lSemihostOpen hostStep p m)
  | OpClose f => discard (bSemihostClose hostStep f)
  | OpWrite f p n => discard (lSemihostWrite hostStep f p n)
  | OpRead f p n => discard (lSemihostRead hostStep f p n)
  | OpSeek f p => discard (bSemihostSeek hostStep f p)
  | OpIsTTY f => discard (bSemihostIsTTY hostStep f)
  | OpGetFLen f => discard (lSemihostGetFLen hostStep f)
  | OpGetErrno => discard (lSemihostGetErrno hostStep)
  | OpRemove p => discard (lSemihostRemove hostStep p)
  | OpRename a b => discard (lSemihostRename hostStep a b)
  | OpGetTmpnam b i n => discard (bSemihostGetTmpnam hostStep b i n)
  | OpIsError s => discard (bSemihostIsError hostStep s)
  | OpGetClock => discard (ulSemihostGetClock hostStep)
  | OpGetTime => discard (ulSemihostGetTime hostStep)
  | OpGetElapsed p => discard (bSemihostGetElapsed hostStep p)
  | OpGetTickFreq => discard (ulSemihostGetTickFreq hostStep)
  | OpGetHeapInfo p => discard (bSemihostGetHeapInfo hostStep p)
  end.

End Call.

(** The request each operation is to put on the wire: command code and
    complete argument block, after the table of the protocol. *)
Definition request_of (op : Op) : Request :=
  match op with
  | OpWriteC c => Req 0x03 (ArgBlock [c mod 256])
  | OpWrite0 s => Req 0x04 (ArgWord (u32 (cs_addr s)))
  | OpReadC => Req 0x07 (ArgWord 0)
  | OpGetCmdline b n => Req 0x15 (ArgBlock [u32 b; u32 n])
  | OpSystem s => Req 0x12 (ArgBlock [u32 (cs_addr s); u32 (strlen s)])
  | OpOpen p m =>
      Req 0x01 (ArgBlock [u32 (cs_addr p); u32 m; u32 (strlen p)])
  | OpClose f => Req 0x02 (ArgBlock [u32 f])
  | OpWrite f p n => Req 0x05 (ArgBlock [u32 f; u32 p; u32 n])
  | OpRead f p n => Req 0x06 (ArgBlock [u32 f; u32 p; u32 n])
  | OpSeek f p => Req 0x0A (ArgBlock [u32 f; u32 p])
  | OpIsTTY f => Req 0x09 (ArgBlock [u32 f])
  | OpGetFLen f => Req 0x0C (ArgBlock [u32 f])
  | OpGetErrno => Req 0x13 (ArgWord 0)
  | OpRemove p => Req 0x0E (ArgBlock [u32 (cs_addr p); u32 (strlen p)])
  | OpRename a b =>
      Req 0x0F (ArgBlock [u32 (cs_addr a); u32 (strlen a);
                          u32 (cs_addr b); u32 (strlen b)])
  | OpGetTmpnam b i n => Req 0x0D (ArgBlock [u32 b; i mod 256; u32 n])
  | OpIsError s => Req 0x08 (ArgBlock [u32 s])
  | OpGetClock => Req 0x10 (ArgWord 0)
  | OpGetTime => Req 0x11 (ArgWord 0)
  | OpGetElapsed p => Req 0x30 (ArgWord (u32 p))
  | OpGetTickFreq => Req 0x31 (ArgWord 0)
  | OpGetHeapInfo p => Req 0x16 (ArgBlock [u32 p])
  end.

End Layer.

(** ** A scripted debug host, for running the model *)

Module Script.
Import Semihost Coverage.

(** What the host answers: r0 per command of interest, one r1 for all
    replies, and the record it stores for a heap-info request. *)
Record Cfg : Type := MkCfg {
  open_r0 : Z;
  write_r0 : Z;
  close_r0 : Z;
  other_r0 : Z;
  any_r1 : Z;
  heap : Semihost_HeapInfo
}.

Definition host (c : Cfg) (n : nat) (rq : Request) (m : Mem)
  : HostReply * nat :=
  let r0 :=
    if rq_cmd rq =? SYS_OPEN then open_r0 c
    else if rq_cmd rq =? SYS_WRITE then write_r0 c
    else if rq_cmd rq =? SYS_CLOSE then close_r0 c
    else other_r0 c in
  let m' :=
    match rq_arg rq with
    | ArgBlock [p] =>
        if rq_cmd rq =? SYS_HEAPINFO then write_HeapInfo m p (heap c) else m
    | _ => m
    end in
  (Reply r0 (any_r1 c) m', S n).

Definition boot : World nat := MkWorld 0%nat (fun _ => 0) [].

Definition full_heap : Semihost_HeapInfo :=
  HeapInfo 0x20001000 0x20004000 0x20005000 0x20004000.

Definition no_stack_limit : Semihost_HeapInfo :=
  HeapInfo 0x20001000 0x20004000 0x20005000 NULL.

(** Handle 3 on open, every write complete, close succeeds. *)
Definition good : Cfg := MkCfg 3 0 0 0 0 full_heap.

(** Open fails; writes report the whole chunk as not written. *)
Definition no_file : Cfg := MkCfg (-1) 16 (-1) 0 0 full_heap.

(** As [good], but every write is reported short by seven bytes. *)
Definition short_writes : Cfg := MkCfg 3 7 0 0 0 full_heap.

(** r0 is zero and r1 is not. *)
Definition r1_set : Cfg := MkCfg 0 0 0 0 1 full_heap.

(** r0 is one and r1 is not zero. *)
Definition r0_one_r1_set : Cfg := MkCfg 1 1 1 1 1 full_heap.

(** Reports success and leaves the stack limit null. *)
Definition heap_hole_ok : Cfg := MkCfg 3 0 0 0 0 no_stack_limit.

(** Reports failure and leaves the stack limit null. *)
Definition heap_hole_err : Cfg := MkCfg 3 0 0 (-1) 0 no_stack_limit.

(** Command line of 42 characters, and a failed retrieval. *)
Definition cmdline_42 : Cfg := MkCfg 0 0 0 0 42 full_heap.
Definition cmdline_fail : Cfg := MkCfg 0 0 0 1 42 full_heap.

(** The filename record as one chunk: the name where it lies, with its
    terminator. *)
Definition enc (s : cstring) : list Chunk :=
  [MkChunk (cs_addr s) (strlen s + 1)].

(** Two records; each emits two data chunks, the second with an
    allocation request in between. *)
Definition unit_a : gcov_info :=
  MkInfo (CStr 0x08001000 "main.gcda")
    (GcdaDump (MkChunk 0x20000100 12)
       (GcdaDump (MkChunk 0x20000200 64) GcdaEnd)).

Definition unit_b : gcov_info :=
  MkInfo (CStr 0x08001010 "hal.gcda")
    (GcdaDump (MkChunk 0x20000300 12)
       (GcdaAlloc 256 (fun p =>
          if p =? NULL then GcdaDump (MkChunk 0x20000400 8) GcdaEnd
          else GcdaDump (MkChunk p 256)
                 (GcdaDump (MkChunk (p + 256) 256) GcdaEnd)))).

Definition registry : list gcov_info := [unit_a; unit_b].

Definition out_file : cstring := CStr 0x08002000 "build/coverage.bin".

End Script.

(** ** Reading replies and logs *)

Module Wire.

(** The words a request puts on the wire. *)
Definition arg_words (a : ReqArg) : list Z :=
  match a with
  | ArgBlock ws => ws
  | ArgWord w => [w]
  end.

(** A value that fits a 32-bit register or argument word. *)
Definition word32 (x : Z) : Prop := 0 <= x < 2 ^ 32.

Definition wire_ok (rq : Request) : Prop :=
  Forall word32 (arg_words (rq_arg rq)).

Section Replay.

Variable H : Type.
Variable hostStep : H -> Request -> Mem -> HostReply * H.

(** Registers r0 and r1 as the host sets them when it is handed [rq] in
    world [w]. *)
Definition reply_r0 (w : World H) (rq : Request) : Z :=
  hr_r0 (fst (hostStep (w_host w) rq (w_mem w))).

Definition reply_r1 (w : World H) (rq : Request) : Z :=
  hr_r1 (fst (hostStep (w_host w) rq (w_mem w))).

(** The world once the host has served the requests of [l] one after the
    other, with nothing happening in between. *)
Fixpoint replay (l : list Request) (w : World H) : World H :=
  match l with
  | [] => w
  | rq :: l' =>
      let (rep, h') := hostStep (w_host w) rq (w_mem w) in
      replay l' (MkWorld h' (hr_mem rep) (w_trace w ++ [rq]))
  end.

(** A host that answers without touching target memory. *)
Definition keeps_memory : Prop :=
  forall h rq m, hr_mem (fst (hostStep h rq m)) = m.

(** A host that does not touch target memory while it serves the requests
    of command [cmd]. *)
Definition leaves_memory_on (cmd : Z) : Prop :=
  forall h arg m, hr_mem (fst (hostStep h (Req cmd arg) m)) = m.

End Replay.

(** The buffer address and the length a write request carries: the second
    and the third word of its block.  Other requests carry none. *)
Definition write_payload (rq : Request) : list (Z * Z) :=
  if rq_cmd rq =? Semihost.SYS_WRITE then
    match rq_arg rq with
    | ArgBlock [_; p; n] => [(p, n)]
    | _ => []
    end
  else [].

(** A chunk as it goes out in a write request. *)
Definition chunk_words (c : Coverage.Chunk) : Z * Z :=
  (u32 (Coverage.ch_data c), u32 (Coverage.ch_len c)).

End Wire.

(** ** More hosts to run the model on *)

Module Probe.

(** Answers every request with r0 = r1 = 0 and leaves memory alone. *)
Definition quiet (n : nat) (rq : Request) (m : Mem) : HostReply * nat :=
  (Reply 0 0 m, S n).

(** Handle 3 on open; every write answered with r0 = 0xFFFFFFFC. *)
Definition huge_remainder : Script.Cfg :=
  Script.MkCfg 3 0xFFFFFFFC 0 0 0 Script.full_heap.

(** A memory with a mark at one address. *)
Definition marked : World nat :=
  MkWorld 0%nat (fun a => if a =? 0x20000000 then 0xA5 else 0) [].

(** A record that was filled in before any request was made. *)
Definition stale : World nat :=
  MkWorld 0%nat
    (Semihost.write_HeapInfo (fun _ => 0) 0x20000400 Script.full_heap) [].

End Probe.

(** * Facts *)

Import Semihost Coverage.

(** ** Words *)

Lemma u32_range x : 0 <= u32 x < 2 ^ 32.
Proof. unfold u32. apply Z.mod_pos_bound. lia. Qed.

Lemma u32_lo32 x : u32 x = lo32 x.
Proof. unfold u32, lo32. rewrite Z.land_ones by lia. reflexivity. Qed.

Lemma u32_c8 x : u32 (c8 x) = x mod 256.
Proof.
  unfold u32, c8. change (2 ^ 8) with 256. apply Z.mod_small.
  pose proof (Z.mod_pos_bound x 256).
  assert (256 < 2 ^ 32) by reflexivity. lia.
Qed.

Lemma lo32_pack a b :
  0 <= b < 2 ^ 32 -> lo32 (Z.lor (Z.shiftl a 32) b) = b.
Proof.
  intros Hb. unfold lo32.
  rewrite Z.land_lor_distr_l, !Z.land_ones by lia.
  rewrite Z.shiftl_mul_pow2 by lia.
  rewrite Z.mod_mul by lia.
  rewrite Z.mod_small by lia. reflexivity.
Qed.

Lemma hi32_pack a b :
  0 <= b < 2 ^ 32 -> hi32 (Z.lor (Z.shiftl a 32) b) = a.
Proof.
  intros Hb. unfold hi32.
  rewrite Z.shiftr_lor, Z.shiftr_shiftl_l by lia.
  rewrite Z.sub_diag, Z.shiftl_0_r.
  rewrite (Z.shiftr_div_pow2 b) by lia.
  rewrite Z.div_small by lia. apply Z.lor_0_r.
Qed.

Lemma skipn_length_app {A : Type} (l d : list A) :
  skipn (length l) (l ++ d) = d.
Proof. induction l; simpl; auto. Qed.

(** ** The state monad *)

Lemma runState_bind {S A B : Type} (c : state S A) (f : A -> state S B) s :
  runState (bind c f) s =
  (let (v, s') := runState c s in runState (f v) s').
Proof. reflexivity. Qed.

Lemma execState_bind {S A B : Type} (c : state S A) (f : A -> state S B) s :
  execState (bind c f) s = execState (f (evalState c s)) (execState c s).
Proof.
  unfold execState, evalState. rewrite runState_bind.
  destruct (runState c s). reflexivity.
Qed.

Lemma evalState_bind {S A B : Type} (c : state S A) (f : A -> state S B) s :
  evalState (bind c f) s = evalState (f (evalState c s)) (execState c s).
Proof.
  unfold execState, evalState. rewrite runState_bind.
  destruct (runState c s). reflexivity.
Qed.

(** ** The transport *)

Section TransportFacts.

Variable H : Type.
Variable hostStep : H -> Request -> Mem -> HostReply * H.

(** One transport call: the host steps once on the request, the request is
    appended to the log, and r1:r0 comes back. *)
Lemma ullSemihostReqOp_run cmd arg (w : World H) :
  runState (ullSemihostReqOp hostStep cmd arg) w =
  (let rep := fst (hostStep (w_host w) (Req cmd arg) (w_mem w)) in
   Z.lor (Z.shiftl (u32 (hr_r1 rep)) 32) (u32 (hr_r0 rep)),
   MkWorld (snd (hostStep (w_host w) (Req cmd arg) (w_mem w)))
     (hr_mem (fst (hostStep (w_host w) (Req cmd arg) (w_mem w))))
     (w_trace w ++ [Req cmd arg])).
Proof.
  unfold ullSemihostReqOp. simpl.
  destruct (hostStep (w_host w) (Req cmd arg) (w_mem w)) as [rep h'].
  reflexivity.
Qed.

Lemma ullSemihostReqOp_lo32 cmd arg (w : World H) :
  lo32 (evalState (ullSemihostReqOp hostStep cmd arg) w) =
  u32 (hr_r0 (fst (hostStep (w_host w) (Req cmd arg) (w_mem w)))).
Proof.
  unfold evalState. rewrite ullSemihostReqOp_run. simpl.
  apply lo32_pack, u32_range.
Qed.

Lemma ullSemihostReqOp_hi32 cmd arg (w : World H) :
  hi32 (evalState (ullSemihostReqOp hostStep cmd arg) w) =
  u32 (hr_r1 (fst (hostStep (w_host w) (Req cmd arg) (w_mem w)))).
Proof.
  unfold evalState. rewrite ullSemihostReqOp_run. simpl.
  apply hi32_pack, u32_range.
Qed.

Lemma ullSemihostReqOp_trace cmd arg (w : World H) :
  w_trace (execState (ullSemihostReqOp hostStep cmd arg) w) =
  w_trace w ++ [Req cmd arg].
Proof. unfold execState. rewrite ullSemihostReqOp_run. reflexivity. Qed.

(** A call followed by a pure decoding of its result. *)
Lemma decode_run {A : Type} cmd arg (f : Z -> A) (w : World H) :
  runState (r <- ullSemihostReqOp hostStep cmd arg ;; ret (f r)) w =
  (f (evalState (ullSemihostReqOp hostStep cmd arg) w),
   execState (ullSemihostReqOp hostStep cmd arg) w).
Proof.
  unfold evalState, execState. rewrite runState_bind.
  destruct (runState (ullSemihostReqOp hostStep cmd arg) w). reflexivity.
Qed.

End TransportFacts.

(** ** The host I/O layer *)

Section HostIOFacts.

Variable H : Type.
Variable hostStep : H -> Request -> Mem -> HostReply * H.

Lemma execState_ret {A : Type} (x : A) (w : World H) :
  execState (ret x) w = w.
Proof. reflexivity. Qed.

Lemma issued_app (w w' : World H) d :
  w_trace w' = w_trace w ++ d -> issued w w' = d.
Proof. intros E. unfold issued. rewrite E. apply skipn_length_app. Qed.

(** An operation that is one transport call and a decoding of its result
    leaves the world as that call left it. *)
Lemma decode_exec {A : Type} cmd arg (f : Z -> A) (w : World H) :
  execState (r <- ullSemihostReqOp hostStep cmd arg ;; ret (f r)) w =
  execState (ullSemihostReqOp hostStep cmd arg) w.
Proof. unfold execState at 1. rewrite decode_run. reflexivity. Qed.

Lemma decode_eval {A : Type} cmd arg (f : Z -> A) (w : World H) :
  evalState (r <- ullSemihostReqOp hostStep cmd arg ;; ret (f r)) w =
  f (evalState (ullSemihostReqOp hostStep cmd arg) w).
Proof. unfold evalState at 1. rewrite decode_run. reflexivity. Qed.

Lemma bSemihostGetHeapInfo_run psInfo (w : World H) :
  runState (bSemihostGetHeapInfo hostStep psInfo) w =
  (let i := heap_after hostStep psInfo w in
   negb (pHeapBase i =? NULL) && negb (pHeapLimit i =? NULL) &&
   (negb (pStackBase i =? NULL) && negb (pStackLimit i =? NULL)),
   execState (ullSemihostReqOp hostStep SYS_HEAPINFO (ArgBlock [u32 psInfo])) w).
Proof.
  unfold bSemihostGetHeapInfo, heap_after, execState.
  rewrite runState_bind.
  destruct (runState (ullSemihostReqOp hostStep SYS_HEAPINFO
                        (ArgBlock [u32 psInfo])) w) as [r w1].
  reflexivity.
Qed.

End HostIOFacts.

(** C1. The command-line retrieval decodes the 64-bit transport result
    [raw] as follows: the call counts as successful exactly when the low 32
    bits of [raw] are 0; then the returned length is the high 32 bits of
    [raw]; when the low 32 bits are nonzero the returned length is 0,
    whatever the high 32 bits hold. *)
Theorem ulSemihostGetCmdline_length
    (H : Type) (hostStep : H -> Request -> Mem -> HostReply * H)
    (pBuf ulSize : Z) (w w' : World H) (raw : Z) :
  runState (ullSemihostReqOp hostStep SYS_GET_CMDLINE
              (ArgBlock [u32 pBuf; u32 ulSize])) w = (raw, w') ->
  runState (ulSemihostGetCmdline hostStep pBuf ulSize) w =
  (if lo32 raw =? 0 then hi32 raw else 0, w').
Proof.
  intros E.
  pose proof (ullSemihostReqOp_lo32 hostStep SYS_GET_CMDLINE
                (ArgBlock [u32 pBuf; u32 ulSize]) w) as Hlo.
  pose proof (ullSemihostReqOp_hi32 hostStep SYS_GET_CMDLINE
                (ArgBlock [u32 pBuf; u32 ulSize]) w) as Hhi.
  unfold evalState in Hlo, Hhi. rewrite E in Hlo, Hhi. cbn [fst] in Hlo, Hhi.
  unfold ulSemihostGetCmdline.
  rewrite decode_run. unfold evalState, execState. rewrite E.
  cbn [fst snd]. f_equal.
  rewrite (u32_lo32 raw).
  destruct (lo32 raw =? 0).
  - fold (hi32 raw). rewrite Hhi. unfold u32. apply Z.mod_mod. lia.
  - reflexivity.
Qed.

(** The scenario of the specification: low word 0 and high word 42 give
    length 42. *)
Lemma ulSemihostGetCmdline_length_witness :
  let hs := Script.host Script.cmdline_42 in
  let raw := evalState (ullSemihostReqOp hs SYS_GET_CMDLINE
                          (ArgBlock [u32 0x20000800; u32 80])) Script.boot in
  lo32 raw = 0 /\ hi32 raw = 42 /\
  evalState (ulSemihostGetCmdline hs 0x20000800 80) Script.boot = 42.
Proof.
  split; [reflexivity | split; [reflexivity |]].
  unfold evalState.
  erewrite ulSemihostGetCmdline_length by reflexivity.
  reflexivity.
Defined.

(** Low word 1 and high word 42: the length is 0. *)
Example ulSemihostGetCmdline_failure_dominates :
  evalState (ulSemihostGetCmdline (Script.host Script.cmdline_fail)
               0x20000800 80) Script.boot = 0.
Proof. reflexivity. Qed.

(** C5. The heap-info call reports validity exactly when all four fields of
    the record are non-null once the transport call has returned.  The raw
    transport result plays no part: two calls, on any two hosts, that leave
    the same record give the same answer. *)
Theorem bSemihostGetHeapInfo_fields_only
    (HA HB : Type)
    (hostA : HA -> Request -> Mem -> HostReply * HA)
    (hostB : HB -> Request -> Mem -> HostReply * HB)
    (psInfo : Z) (wA : World HA) (wB : World HB) :
  (evalState (bSemihostGetHeapInfo hostA psInfo) wA = true <->
   all_fields_set (heap_after hostA psInfo wA)) /\
  (heap_after hostA psInfo wA = heap_after hostB psInfo wB ->
   evalState (bSemihostGetHeapInfo hostA psInfo) wA =
   evalState (bSemihostGetHeapInfo hostB psInfo) wB).
Proof.
  split.
  - unfold evalState. rewrite bSemihostGetHeapInfo_run. cbn [fst].
    unfold all_fields_set.
    rewrite !andb_true_iff, !negb_true_iff, !Z.eqb_neq. tauto.
  - intros E. unfold evalState. rewrite !bSemihostGetHeapInfo_run.
    cbn [fst]. rewrite E. reflexivity.
Qed.

(** A host that reports success (low word 0) and one that reports failure,
    both leaving the stack limit null: the record is invalid either way. *)
Lemma bSemihostGetHeapInfo_fields_only_witness :
  let hA := Script.host Script.heap_hole_ok in
  let hB := Script.host Script.heap_hole_err in
  let rq := ArgBlock [u32 0x20000400] in
  lo32 (evalState (ullSemihostReqOp hA SYS_HEAPINFO rq) Script.boot) = 0 /\
  lo32 (evalState (ullSemihostReqOp hB SYS_HEAPINFO rq) Script.boot)
    = 0xFFFFFFFF /\
  evalState (bSemihostGetHeapInfo hA 0x20000400) Script.boot = false /\
  evalState (bSemihostGetHeapInfo hA 0x20000400) Script.boot =
  evalState (bSemihostGetHeapInfo hB 0x20000400) Script.boot.
Proof.
  split; [reflexivity | split; [reflexivity | split; [reflexivity |]]].
  apply (proj2 (bSemihostGetHeapInfo_fields_only
                  (Script.host Script.heap_hole_ok)
                  (Script.host Script.heap_hole_err)
                  0x20000400 Script.boot Script.boot)).
  reflexivity.
Defined.

(** With all four fields set the record is valid. *)
Example bSemihostGetHeapInfo_full_record :
  evalState (bSemihostGetHeapInfo (Script.host Script.good) 0x20000400)
    Script.boot = true.
Proof. reflexivity. Qed.

(** C6 read on the whole raw result does not hold: with r0 = 0 and r1 = 1
    the raw result is 2^32, which is not 0, and yet close succeeds and
    is-error answers false; with r0 = 1 and r1 = 1 the raw result is not 1
    and yet is-tty answers true. *)
Lemma bool_flags_raw_result_refuted :
  let hs := Script.host Script.r1_set in
  let hs1 := Script.host Script.r0_one_r1_set in
  let raw cmd := evalState (ullSemihostReqOp hs cmd (ArgBlock [u32 3]))
                   Script.boot in
  let raw1 := evalState (ullSemihostReqOp hs1 SYS_ISTTY (ArgBlock [u32 3]))
                Script.boot in
  (raw SYS_CLOSE <> 0 /\
   evalState (bSemihostClose hs 3) Script.boot = true) /\
  (raw SYS_ISERROR <> 0 /\
   evalState (bSemihostIsError hs 3) Script.boot = false) /\
  (raw1 <> 1 /\
   evalState (bSemihostIsTTY hs1 3) Script.boot = true).
Proof.
  cbv zeta. repeat split; try reflexivity; vm_compute; discriminate.
Qed.

(** C6, amended.  The boolean flags are decided by the low 32 bits of the
    raw transport result and by nothing else: close, seek, temp-name and
    elapsed-ticks answer true exactly when the low word is 0; is-tty
    answers true exactly when the low word is 1; is-error answers true
    exactly when the low word is nonzero. *)
Theorem bool_flags_low_word
    (H : Type) (hostStep : H -> Request -> Mem -> HostReply * H)
    (w : World H)
    (lFile ulPos pszBuf ucId ulSize pullElapsed lStatus : Z) :
  let low cmd arg := lo32 (evalState (ullSemihostReqOp hostStep cmd arg) w) in
  evalState (bSemihostClose hostStep lFile) w =
    (low SYS_CLOSE (ArgBlock [u32 lFile]) =? 0) /\
  evalState (bSemihostSeek hostStep lFile ulPos) w =
    (low SYS_SEEK (ArgBlock [u32 lFile; u32 ulPos]) =? 0) /\
  evalState (bSemihostGetTmpnam hostStep pszBuf ucId ulSize) w =
    (low SYS_TMPNAM (ArgBlock [u32 pszBuf; u32 (c8 ucId); u32 ulSize]) =? 0) /\
  evalState (bSemihostGetElapsed hostStep pullElapsed) w =
    (low SYS_ELAPSED (ArgWord (u32 pullElapsed)) =? 0) /\
  evalState (bSemihostIsTTY hostStep lFile) w =
    (low SYS_ISTTY (ArgBlock [u32 lFile]) =? 1) /\
  evalState (bSemihostIsError hostStep lStatus) w =
    negb (low SYS_ISERROR (ArgBlock [u32 lStatus]) =? 0).
Proof.
  cbv zeta.
  unfold bSemihostClose, bSemihostSeek, bSemihostGetTmpnam,
    bSemihostGetElapsed, bSemihostIsTTY, bSemihostIsError.
  rewrite !decode_eval, !u32_lo32.
  repeat split; reflexivity.
Qed.

(** C10. Every operation of the host I/O layer issues exactly one
    transport request: the log grows by the one request of that operation,
    which carries the command code and the complete argument block, and
    the host has stepped once, on that request. *)
Theorem each_operation_one_request
    (H : Type) (hostStep : H -> Request -> Mem -> HostReply * H)
    (op : Layer.Op) (w : World H) :
  issued w (execState (Layer.call hostStep op) w) = [Layer.request_of op] /\
  w_host (execState (Layer.call hostStep op) w) =
  snd (hostStep (w_host w) (Layer.request_of op) (w_mem w)).
Proof.
  assert (E : execState (Layer.call hostStep op) w =
              execState (ullSemihostReqOp hostStep
                           (rq_cmd (Layer.request_of op))
                           (rq_arg (Layer.request_of op))) w).
  { destruct op; cbn [Layer.call Layer.request_of rq_cmd rq_arg];
      unfold Layer.discard, vSemihostWriteC, vSemihostWrite0, cSemihostReadC,
        ulSemihostGetCmdline, lSemihostSystem, lSemihostOpen, bSemihostClose,
        lSemihostWrite, lSemihostRead, bSemihostSeek, bSemihostIsTTY,
        lSemihostGetFLen, lSemihostGetErrno, lSemihostRemove, lSemihostRename,
        bSemihostGetTmpnam, bSemihostIsError, ulSemihostGetClock,
        ulSemihostGetTime, bSemihostGetElapsed, ulSemihostGetTickFreq,
        bSemihostGetHeapInfo;
      rewrite ?u32_c8;
      first [ apply decode_exec
            | rewrite execState_bind, execState_ret; apply decode_exec
            | rewrite !execState_bind; reflexivity ]. }
  rewrite E. destruct (Layer.request_of op) as [cmd arg].
  cbn [rq_cmd rq_arg]. split.
  - apply issued_app, ullSemihostReqOp_trace.
  - unfold execState. rewrite ullSemihostReqOp_run. reflexivity.
Qed.

(** ** The coverage export pipeline *)

Section CoverageFacts.

Variable H : Type.
Variable hostStep : H -> Request -> Mem -> HostReply * H.
Variable enc : cstring -> list Chunk.

Local Abbreviation trace_after c w := (w_trace (execState c w)).

(** A loop whose body appends [g x] to the log appends the [g x] one
    after the other, in the order of the list. *)
Lemma for_each_trace {A : Type} (g : A -> list Request)
    (body : A -> state (World H) unit) (l : list A) :
  (forall x w, trace_after (body x) w = w_trace w ++ g x) ->
  forall w, trace_after (for_each l body) w = w_trace w ++ flat_map g l.
Proof.
  intros Hbody. induction l as [| x l IH]; intros w.
  - cbn [for_each flat_map]. rewrite execState_ret, app_nil_r. reflexivity.
  - cbn [for_each flat_map]. rewrite execState_bind, IH, Hbody.
    symmetry. apply app_assoc.
Qed.

Lemma flat_map_singleton {A B : Type} (f : A -> B) (l : list A) :
  flat_map (fun x => [f x]) l = map f l.
Proof. induction l; simpl; congruence. Qed.

Lemma vDumpCb_trace pData uLength lFile (w : World H) :
  trace_after (vDumpCb hostStep pData uLength lFile) w =
  w_trace w ++ [write_req lFile (MkChunk pData uLength)].
Proof.
  unfold vDumpCb, lSemihostWrite.
  rewrite execState_bind, execState_ret, decode_exec.
  apply ullSemihostReqOp_trace.
Qed.

Lemma vFilenameCb_trace pszFname lFile (w : World H) :
  trace_after (vFilenameCb hostStep enc pszFname lFile) w =
  w_trace w ++ map (write_req lFile) (enc pszFname).
Proof.
  unfold vFilenameCb, __gcov_filename_to_gcfn.
  rewrite <- flat_map_singleton.
  apply for_each_trace. intros [p n] w0. apply vDumpCb_trace.
Qed.

Lemma gcda_pass_trace d lFile :
  forall w : World H,
  trace_after (gcda_pass d (vDumpCb hostStep) pAllocateCb lFile) w =
  w_trace w ++ map (write_req lFile) (gcda_chunks NULL d).
Proof.
  induction d as [| [p n] k IH | size k IH]; intros w.
  - cbn [gcda_pass gcda_chunks map]. rewrite execState_ret, app_nil_r.
    reflexivity.
  - cbn [gcda_pass gcda_chunks map ch_data ch_len].
    rewrite execState_bind, IH, vDumpCb_trace.
    rewrite <- app_assoc. reflexivity.
  - cbn [gcda_pass gcda_chunks]. apply IH.
Qed.

Lemma __gcov_info_to_gcda_trace info lFile (w : World H) :
  trace_after (__gcov_info_to_gcda info (vFilenameCb hostStep enc)
                 (vDumpCb hostStep) pAllocateCb lFile) w =
  w_trace w ++ (map (write_req lFile) (filename_pass enc info) ++
                map (write_req lFile) (data_pass info)).
Proof.
  unfold __gcov_info_to_gcda.
  rewrite execState_bind, gcda_pass_trace, vFilenameCb_trace.
  rewrite <- app_assoc. reflexivity.
Qed.

Lemma lSemihostOpen_trace pszPath (w : World H) :
  trace_after (lSemihostOpen hostStep pszPath 5) w =
  w_trace w ++ [open_req pszPath].
Proof.
  unfold lSemihostOpen. rewrite decode_exec. apply ullSemihostReqOp_trace.
Qed.

Lemma bSemihostClose_trace lFile (w : World H) :
  trace_after (bSemihostClose hostStep lFile) w =
  w_trace w ++ [close_req lFile].
Proof.
  unfold bSemihostClose. rewrite decode_exec. apply ullSemihostReqOp_trace.
Qed.

(** The log of one dump: the open request, then for each record in turn
    the writes of its filename pass followed by the writes of its data
    pass, then the close request; every write and the close carry the
    handle that open returned. *)
Lemma Coverage_vDump_issued registry pszFilename (w : World H) :
  issued w (execState (Coverage_vDump hostStep enc registry pszFilename) w) =
  let lFile := evalState (lSemihostOpen hostStep pszFilename 5) w in
  open_req pszFilename ::
  flat_map (fun info => map (write_req lFile) (filename_pass enc info) ++
                        map (write_req lFile) (data_pass info)) registry ++
  [close_req lFile].
Proof.
  apply issued_app. unfold Coverage_vDump.
  rewrite execState_bind, execState_bind.
  rewrite execState_bind, execState_ret.
  rewrite bSemihostClose_trace.
  rewrite (for_each_trace _ _ _
             (fun info w0 => __gcov_info_to_gcda_trace info _ w0)).
  rewrite lSemihostOpen_trace.
  rewrite <- !app_assoc. reflexivity.
Qed.

Lemma count_cmd_app c l1 l2 :
  count_cmd c (l1 ++ l2) = (count_cmd c l1 + count_cmd c l2)%nat.
Proof. unfold count_cmd. rewrite filter_app, length_app. reflexivity. Qed.

Lemma count_cmd_writes c lFile l :
  count_cmd c (map (write_req lFile) l) =
  if SYS_WRITE =? c then length l else 0%nat.
Proof.
  unfold count_cmd. induction l as [| x l IH]; cbn [map filter].
  - destruct (SYS_WRITE =? c); reflexivity.
  - cbn [write_req rq_cmd]. destruct (SYS_WRITE =? c); simpl; auto.
Qed.

Lemma count_cmd_records c lFile registry :
  count_cmd c
    (flat_map (fun info => map (write_req lFile) (filename_pass enc info) ++
                           map (write_req lFile) (data_pass info)) registry) =
  if SYS_WRITE =? c
  then list_sum (map (fun info => (length (filename_pass enc info) +
                                   length (data_pass info))%nat) registry)
  else 0%nat.
Proof.
  induction registry as [| info l IH]; cbn [flat_map map list_sum].
  - destruct (SYS_WRITE =? c); reflexivity.
  - rewrite !count_cmd_app, IH, !count_cmd_writes.
    destruct (SYS_WRITE =? c); reflexivity.
Qed.

Lemma length_records lFile registry :
  length
    (flat_map (fun info => map (write_req lFile) (filename_pass enc info) ++
                           map (write_req lFile) (data_pass info)) registry) =
  list_sum (map (fun info => (length (filename_pass enc info) +
                              length (data_pass info))%nat) registry).
Proof.
  induction registry as [| info l IH]; cbn [flat_map map list_sum].
  - reflexivity.
  - rewrite !length_app, !length_map, IH. reflexivity.
Qed.

Lemma writes_of_registry lFile registry :
  flat_map (fun info => map (write_req lFile) (filename_pass enc info) ++
                        map (write_req lFile) (data_pass info)) registry =
  map (write_req lFile)
    (flat_map (fun info => filename_pass enc info ++ data_pass info)
       registry).
Proof.
  induction registry as [| info l IH]; cbn [flat_map map].
  - reflexivity.
  - rewrite IH, !map_app. reflexivity.
Qed.

End CoverageFacts.

Lemma payload_of_writes lFile (l : list Chunk) :
  flat_map Wire.write_payload (map (write_req lFile) l) =
  map Wire.chunk_words l.
Proof.
  induction l as [| c l IH]; cbn [map flat_map].
  - reflexivity.
  - rewrite IH. reflexivity.
Qed.

(** The scripted host writes target memory for a heap-info request only. *)
Lemma Script_host_leaves_writes (c : Script.Cfg) :
  Wire.leaves_memory_on (Script.host c) SYS_WRITE.
Proof.
  intros h arg m. unfold Script.host. cbn [fst hr_mem rq_arg rq_cmd].
  destruct arg as [[| p [| q l]] | x]; reflexivity.
Qed.

(** C2. One dump of a registry of N records issues exactly one open and
    exactly one close, and one write for each chunk that the filename and
    data passes of the N records emit; nothing else is issued.  With an
    empty registry there is no write, and the one open and the one close
    still occur. *)
Theorem Coverage_vDump_call_counts
    (H : Type) (hostStep : H -> Request -> Mem -> HostReply * H)
    (enc : cstring -> list Chunk) (registry : list gcov_info)
    (pszFilename : cstring) (w : World H) :
  let tr := issued w (execState
              (Coverage_vDump hostStep enc registry pszFilename) w) in
  let tr0 := issued w (execState
               (Coverage_vDump hostStep enc [] pszFilename) w) in
  let chunks := list_sum (map (fun info =>
                  (length (filename_pass enc info) +
                   length (data_pass info))%nat) registry) in
  (count_cmd SYS_OPEN tr = 1 /\ count_cmd SYS_CLOSE tr = 1 /\
   count_cmd SYS_WRITE tr = chunks /\ length tr = 2 + chunks)%nat /\
  (count_cmd SYS_OPEN tr0 = 1 /\ count_cmd SYS_CLOSE tr0 = 1 /\
   count_cmd SYS_WRITE tr0 = 0)%nat.
Proof.
  cbv zeta. rewrite !Coverage_vDump_issued. cbv zeta.
  split; [| repeat split; reflexivity].
  repeat split.
  - change (?x :: ?l ++ ?y) with ([x] ++ l ++ y).
    rewrite !count_cmd_app, count_cmd_records. reflexivity.
  - change (?x :: ?l ++ ?y) with ([x] ++ l ++ y).
    rewrite !count_cmd_app, count_cmd_records. cbn. lia.
  - change (?x :: ?l ++ ?y) with ([x] ++ l ++ y).
    rewrite !count_cmd_app, count_cmd_records. cbn. lia.
  - cbn [length]. rewrite length_app, length_records. cbn [length]. lia.
Qed.

(** The scenario of the specification: two records, each with one filename
    chunk and two data chunks, give one open, six writes and one close. *)
Example Coverage_vDump_two_records :
  let tr := issued Script.boot
              (execState (Coverage_vDump (Script.host Script.good) Script.enc
                            Script.registry Script.out_file) Script.boot) in
  (count_cmd SYS_OPEN tr = 1 /\ count_cmd SYS_WRITE tr = 6 /\
   count_cmd SYS_CLOSE tr = 1)%nat.
Proof. repeat split; reflexivity. Qed.

(** C3. In the log of one dump the writes lie between the open and the
    close, one write per chunk, and read in order they carry the chunks of
    the first record's filename pass in the order the runtime pushed them,
    then those of its data pass in the order the runtime pushed them, then
    the same for the second record, and so on in registry order.  So the
    writes of two records never interleave and the two passes of a record
    are never swapped.  This holds on every host. *)
Theorem Coverage_vDump_write_order
    (H : Type) (hostStep : H -> Request -> Mem -> HostReply * H)
    (enc : cstring -> list Chunk) (registry : list gcov_info)
    (pszFilename : cstring) (w : World H) :
  let tr := issued w (execState
              (Coverage_vDump hostStep enc registry pszFilename) w) in
  let chunks := flat_map (fun info =>
                  filename_pass enc info ++ data_pass info) registry in
  hd_error tr = Some (open_req pszFilename) /\
  map rq_cmd tr =
    [SYS_OPEN] ++ map (fun _ => SYS_WRITE) chunks ++ [SYS_CLOSE] /\
  flat_map Wire.write_payload tr = map Wire.chunk_words chunks.
Proof.
  cbv zeta. rewrite Coverage_vDump_issued. cbv zeta.
  rewrite writes_of_registry.
  split; [reflexivity |]. split.
  - cbn [map app open_req rq_cmd]. f_equal.
    rewrite map_app, map_map. reflexivity.
  - change (?x :: ?l ++ ?y) with ([x] ++ l ++ y).
    rewrite !flat_map_app, payload_of_writes. cbn [flat_map].
    change (Wire.write_payload (open_req pszFilename)) with (@nil (Z * Z)).
    change (Wire.write_payload (close_req ?f)) with (@nil (Z * Z)).
    cbn [app]. apply app_nil_r.
Qed.

(** The order on the two-record registry, chunk by chunk. *)
Example Coverage_vDump_two_records_order :
  issued Script.boot
    (execState (Coverage_vDump (Script.host Script.good) Script.enc
                  Script.registry Script.out_file) Script.boot) =
  [ Req SYS_OPEN (ArgBlock [0x08002000; 5; 18]);
    Req SYS_WRITE (ArgBlock [3; 0x08001000; 10]);
    Req SYS_WRITE (ArgBlock [3; 0x20000100; 12]);
    Req SYS_WRITE (ArgBlock [3; 0x20000200; 64]);
    Req SYS_WRITE (ArgBlock [3; 0x08001010; 9]);
    Req SYS_WRITE (ArgBlock [3; 0x20000300; 12]);
    Req SYS_WRITE (ArgBlock [3; 0x20000400; 8]);
    Req SYS_CLOSE (ArgBlock [3]) ].
Proof. reflexivity. Qed.

(** C4. When the open at the start of a dump fails (the handle is -1) the
    dump does not stop: every record of the registry is still serialised,
    each of its chunks is still written, against the invalid handle, and
    exactly one close is issued, with that same handle.  The handle is kept
    in a local that the callbacks and the close read back, so this is
    stated for hosts that leave target memory alone while they serve the
    writes. *)
Theorem Coverage_vDump_open_failure
    (H : Type) (hostStep : H -> Request -> Mem -> HostReply * H)
    (enc : cstring -> list Chunk) (registry : list gcov_info)
    (pszFilename : cstring) (w : World H) :
  Wire.leaves_memory_on hostStep SYS_WRITE ->
  evalState (lSemihostOpen hostStep pszFilename 5) w = -1 ->
  let tr := issued w (execState
              (Coverage_vDump hostStep enc registry pszFilename) w) in
  tr = [open_req pszFilename] ++
       flat_map (fun info =>
                   map (write_req (-1)) (filename_pass enc info) ++
                   map (write_req (-1)) (data_pass info)) registry ++
       [close_req (-1)] /\
  count_cmd SYS_CLOSE tr = 1%nat /\
  count_cmd SYS_WRITE tr =
    list_sum (map (fun info => (length (filename_pass enc info) +
                                length (data_pass info))%nat) registry).
Proof.
  intros Hframe Hopen. cbv zeta. rewrite Coverage_vDump_issued. cbv zeta.
  rewrite Hopen. split; [reflexivity |].
  change (?x :: ?l ++ ?y) with ([x] ++ l ++ y).
  rewrite !count_cmd_app, !count_cmd_records. cbn. split; lia.
Qed.

(** A host that refuses the open and every write: both records are still
    written, with handle word 0xFFFFFFFF, and the close carries it too. *)
Lemma Coverage_vDump_open_failure_witness :
  let hs := Script.host Script.no_file in
  let tr := issued Script.boot
              (execState (Coverage_vDump hs Script.enc Script.registry
                            Script.out_file) Script.boot) in
  evalState (lSemihostOpen hs Script.out_file 5) Script.boot = -1 /\
  evalState (lSemihostWrite hs (-1) 0x08001000 10) Script.boot = 16 /\
  count_cmd SYS_WRITE tr = 6%nat /\
  last tr (Req 0 (ArgWord 0)) = Req SYS_CLOSE (ArgBlock [0xFFFFFFFF]) /\
  count_cmd SYS_CLOSE tr = 1%nat.
Proof.
  split; [reflexivity |].
  split; [reflexivity |].
  split; [reflexivity |].
  split; [reflexivity |].
  apply (@Coverage_vDump_open_failure _ (Script.host Script.no_file)
           Script.enc Script.registry Script.out_file Script.boot
           (Script_host_leaves_writes Script.no_file)).
  reflexivity.
Defined.

(** C7. The dump never looks at the remainder a write reports.  The
    callback returns nothing, and on any two hosts that hand out the same
    handle and leave target memory alone while they serve the writes (the
    handle is read back from a local at every chunk and at the close), the
    dump issues the same requests, however the two answer the writes; no
    chunk is written twice. *)
Theorem Coverage_vDump_ignores_remainder
    (HA HB : Type)
    (hostA : HA -> Request -> Mem -> HostReply * HA)
    (hostB : HB -> Request -> Mem -> HostReply * HB)
    (enc : cstring -> list Chunk) (registry : list gcov_info)
    (pszFilename : cstring) (wA : World HA) (wB : World HB) :
  Wire.leaves_memory_on hostA SYS_WRITE ->
  Wire.leaves_memory_on hostB SYS_WRITE ->
  evalState (lSemihostOpen hostA pszFilename 5) wA =
  evalState (lSemihostOpen hostB pszFilename 5) wB ->
  issued wA (execState (Coverage_vDump hostA enc registry pszFilename) wA) =
  issued wB (execState (Coverage_vDump hostB enc registry pszFilename) wB).
Proof.
  intros HframeA HframeB Hopen. rewrite !Coverage_vDump_issued. cbv zeta.
  rewrite Hopen. reflexivity.
Qed.

(** One host completes every write, the other reports each seven bytes
    short; the two dumps issue the same eight requests. *)
Lemma Coverage_vDump_ignores_remainder_witness :
  let hA := Script.host Script.good in
  let hB := Script.host Script.short_writes in
  evalState (lSemihostWrite hA 3 0x20000100 12) Script.boot = 0 /\
  evalState (lSemihostWrite hB 3 0x20000100 12) Script.boot = 7 /\
  issued Script.boot
    (execState (Coverage_vDump hA Script.enc Script.registry Script.out_file)
       Script.boot) =
  issued Script.boot
    (execState (Coverage_vDump hB Script.enc Script.registry Script.out_file)
       Script.boot).
Proof.
  split; [reflexivity |].
  split; [reflexivity |].
  apply (@Coverage_vDump_ignores_remainder _ _
           (Script.host Script.good) (Script.host Script.short_writes)
           Script.enc Script.registry Script.out_file
           Script.boot Script.boot
           (Script_host_leaves_writes Script.good)
           (Script_host_leaves_writes Script.short_writes)).
  reflexivity.
Defined.

(** C8. The allocator callback answers null for every size and every
    argument.  A runtime that asks for a buffer during the data pass gets
    null and carries on from there: the request changes neither the log
    nor the memory, and the pipeline allocates nothing. *)
Theorem pAllocateCb_always_null
    (H : Type) (hostStep : H -> Request -> Mem -> HostReply * H)
    (size pArg lFile : Z) (k : Z -> gcda_run) (w : World H) :
  pAllocateCb size pArg = NULL /\
  runState (gcda_pass (GcdaAlloc size k) (vDumpCb hostStep)
              pAllocateCb lFile) w =
  runState (gcda_pass (k NULL) (vDumpCb hostStep) pAllocateCb lFile) w.
Proof. split; reflexivity. Qed.

(** * Further facts about the layer and the pipeline *)

Import Wire.

(** ** Casts *)

Lemma u32_idem x : u32 (u32 x) = u32 x.
Proof. unfold u32. apply Z.mod_mod. lia. Qed.

Lemma u32_small x : 0 <= x < 2 ^ 32 -> u32 x = x.
Proof. intros Hx. unfold u32. apply Z.mod_small. exact Hx. Qed.

Lemma s32_congr x y : u32 x = u32 y -> s32 x = s32 y.
Proof. intros E. unfold s32. rewrite E. reflexivity. Qed.

Lemma s32_range x : - 2 ^ 31 <= s32 x < 2 ^ 31.
Proof.
  unfold s32. pose proof (u32_range x) as Hx. cbv zeta.
  destruct (Z.ltb_spec (u32 x) (2 ^ 31)); lia.
Qed.

(** Reading a word as signed and casting it back loses nothing. *)
Lemma u32_s32 x : u32 (s32 x) = u32 x.
Proof.
  unfold s32. cbv zeta. destruct (u32 x <? 2 ^ 31).
  - apply u32_idem.
  - unfold u32 at 1.
    replace (u32 x - 2 ^ 32) with (u32 x + (-1) * 2 ^ 32) by lia.
    rewrite Z.mod_add by lia. apply u32_idem.
Qed.

Lemma s32_zero_iff x : s32 x = 0 <-> u32 x = 0.
Proof.
  unfold s32. pose proof (u32_range x) as Hx. cbv zeta.
  destruct (Z.ltb_spec (u32 x) (2 ^ 31)); lia.
Qed.

Lemma s32_minus_one_iff x : s32 x = -1 <-> u32 x = 0xFFFFFFFF.
Proof.
  unfold s32. pose proof (u32_range x) as Hx. cbv zeta.
  destruct (Z.ltb_spec (u32 x) (2 ^ 31)); lia.
Qed.

(** ** What the caller gets back *)

Section ReplyFacts.

Variable H : Type.
Variable hostStep : H -> Request -> Mem -> HostReply * H.

Lemma ullSemihostReqOp_value cmd arg (w : World H) :
  evalState (ullSemihostReqOp hostStep cmd arg) w =
  Z.lor (Z.shiftl (u32 (reply_r1 hostStep w (Req cmd arg))) 32)
    (u32 (reply_r0 hostStep w (Req cmd arg))).
Proof. unfold evalState. rewrite ullSemihostReqOp_run. reflexivity. Qed.

Lemma ullSemihostReqOp_u32 cmd arg (w : World H) :
  u32 (evalState (ullSemihostReqOp hostStep cmd arg) w) =
  u32 (reply_r0 hostStep w (Req cmd arg)).
Proof. rewrite u32_lo32. apply ullSemihostReqOp_lo32. Qed.

Lemma signed_result cmd arg (w : World H) :
  evalState (r <- ullSemihostReqOp hostStep cmd arg ;; ret (s32 r)) w =
  s32 (reply_r0 hostStep w (Req cmd arg)).
Proof.
  rewrite decode_eval. apply s32_congr, ullSemihostReqOp_u32.
Qed.

Lemma unsigned_result cmd arg (w : World H) :
  evalState (r <- ullSemihostReqOp hostStep cmd arg ;; ret (u32 r)) w =
  u32 (reply_r0 hostStep w (Req cmd arg)).
Proof. rewrite decode_eval. apply ullSemihostReqOp_u32. Qed.

End ReplyFacts.

(** X2. The eight operations with an [int32_t] result return register r0
    of the reply, its low 32 bits read as two's complement; register r1
    has no influence, and the result always lies in the int32 range. *)
Theorem signed_results_are_r0
    (H : Type) (hostStep : H -> Request -> Mem -> HostReply * H)
    (w : World H) (pszA pszB : cstring) (ulMode lFile pData ulLen : Z) :
  let ok (res : Z) (op : Layer.Op) :=
    res = s32 (reply_r0 hostStep w (Layer.request_of op)) /\
    - 2 ^ 31 <= res < 2 ^ 31 in
  ok (evalState (lSemihostOpen hostStep pszA ulMode) w)
     (Layer.OpOpen pszA ulMode) /\
  ok (evalState (lSemihostWrite hostStep lFile pData ulLen) w)
     (Layer.OpWrite lFile pData ulLen) /\
  ok (evalState (lSemihostRead hostStep lFile pData ulLen) w)
     (Layer.OpRead lFile pData ulLen) /\
  ok (evalState (lSemihostGetFLen hostStep lFile) w)
     (Layer.OpGetFLen lFile) /\
  ok (evalState (lSemihostSystem hostStep pszA) w)
     (Layer.OpSystem pszA) /\
  ok (evalState (lSemihostGetErrno hostStep) w)
     Layer.OpGetErrno /\
  ok (evalState (lSemihostRemove hostStep pszA) w)
     (Layer.OpRemove pszA) /\
  ok (evalState (lSemihostRename hostStep pszA pszB) w)
     (Layer.OpRename pszA pszB).
Proof.
  cbv zeta beta.
  unfold lSemihostOpen, lSemihostWrite, lSemihostRead, lSemihostGetFLen,
    lSemihostSystem, lSemihostGetErrno, lSemihostRemove, lSemihostRename.
  rewrite !signed_result.
  repeat split; try reflexivity; apply s32_range.
Qed.

(** X3. Failure and success values of the file operations, in terms of
    what the host put into r0: open and file-length return -1 exactly when
    the low word of r0 is all ones; write and read return 0 (everything
    transferred) exactly when the low word of r0 is 0. *)
Theorem file_sentinels
    (H : Type) (hostStep : H -> Request -> Mem -> HostReply * H)
    (w : World H) (pszPath : cstring) (ulMode lFile pData ulLen : Z) :
  let r0 op := u32 (reply_r0 hostStep w (Layer.request_of op)) in
  (evalState (lSemihostOpen hostStep pszPath ulMode) w = -1 <->
   r0 (Layer.OpOpen pszPath ulMode) = 0xFFFFFFFF) /\
  (evalState (lSemihostGetFLen hostStep lFile) w = -1 <->
   r0 (Layer.OpGetFLen lFile) = 0xFFFFFFFF) /\
  (evalState (lSemihostWrite hostStep lFile pData ulLen) w = 0 <->
   r0 (Layer.OpWrite lFile pData ulLen) = 0) /\
  (evalState (lSemihostRead hostStep lFile pData ulLen) w = 0 <->
   r0 (Layer.OpRead lFile pData ulLen) = 0).
Proof.
  cbv zeta beta.
  unfold lSemihostOpen, lSemihostWrite, lSemihostRead, lSemihostGetFLen.
  rewrite !signed_result.
  repeat split; try apply s32_minus_one_iff; apply s32_zero_iff.
Qed.

(** X4. For a transfer of less than 2 GiB, when the host reports a
    remainder that does not exceed the requested length, write returns
    exactly that remainder, a number between 0 and the length; and the
    same holds, on its own terms, for read. *)
Theorem transfer_remainder_exact
    (H : Type) (hostStep : H -> Request -> Mem -> HostReply * H)
    (w : World H) (lFile pData ulLen : Z) :
  let rw := u32 (reply_r0 hostStep w
                   (Layer.request_of (Layer.OpWrite lFile pData ulLen))) in
  let rr := u32 (reply_r0 hostStep w
                   (Layer.request_of (Layer.OpRead lFile pData ulLen))) in
  (0 <= ulLen < 2 ^ 31 -> rw <= ulLen ->
   evalState (lSemihostWrite hostStep lFile pData ulLen) w = rw /\
   0 <= evalState (lSemihostWrite hostStep lFile pData ulLen) w <= ulLen) /\
  (0 <= ulLen < 2 ^ 31 -> rr <= ulLen ->
   evalState (lSemihostRead hostStep lFile pData ulLen) w = rr /\
   0 <= evalState (lSemihostRead hostStep lFile pData ulLen) w <= ulLen).
Proof.
  cbv zeta.
  unfold lSemihostWrite, lSemihostRead. rewrite !signed_result.
  cbn [Layer.request_of].
  change 0x05 with SYS_WRITE. change 0x06 with SYS_READ.
  pose proof (u32_range (reply_r0 hostStep w
    (Req SYS_WRITE (ArgBlock [u32 lFile; u32 pData; u32 ulLen])))) as Bw.
  pose proof (u32_range (reply_r0 hostStep w
    (Req SYS_READ (ArgBlock [u32 lFile; u32 pData; u32 ulLen])))) as Br.
  unfold s32. cbv zeta.
  split; intros Hlen Hrem.
  - destruct (Z.ltb_spec (u32 (reply_r0 hostStep w
      (Req SYS_WRITE (ArgBlock [u32 lFile; u32 pData; u32 ulLen]))))
      (2 ^ 31)); lia.
  - destruct (Z.ltb_spec (u32 (reply_r0 hostStep w
      (Req SYS_READ (ArgBlock [u32 lFile; u32 pData; u32 ulLen]))))
      (2 ^ 31)); lia.
Qed.

(** Twelve bytes offered, seven reported as not written; the same host
    answers a read with r0 = 0, which the write half does not depend on. *)
Lemma transfer_remainder_exact_witness :
  evalState (lSemihostWrite (Script.host Script.short_writes)
               3 0x20000100 12) Script.boot = 7 /\
  0 <= evalState (lSemihostWrite (Script.host Script.short_writes)
                    3 0x20000100 12) Script.boot <= 12.
Proof.
  apply (proj1 (@transfer_remainder_exact _ (Script.host Script.short_writes)
                  Script.boot 3 0x20000100 12));
    vm_compute; intuition discriminate.
Defined.

(** X5. The result type of write and read is signed: when the host
    reports a remainder of 2 GiB or more, the caller sees a negative
    number, the remainder less 2^32. *)
Theorem transfer_remainder_wraps
    (H : Type) (hostStep : H -> Request -> Mem -> HostReply * H)
    (w : World H) (lFile pData ulLen : Z) :
  let rw := u32 (reply_r0 hostStep w
                   (Layer.request_of (Layer.OpWrite lFile pData ulLen))) in
  2 ^ 31 <= rw ->
  evalState (lSemihostWrite hostStep lFile pData ulLen) w = rw - 2 ^ 32 /\
  evalState (lSemihostWrite hostStep lFile pData ulLen) w < 0.
Proof.
  cbv zeta. intros Hw. unfold lSemihostWrite. rewrite signed_result.
  cbn [Layer.request_of] in Hw |- *.
  change 0x05 with SYS_WRITE in *.
  pose proof (u32_range (reply_r0 hostStep w
    (Req SYS_WRITE (ArgBlock [u32 lFile; u32 pData; u32 ulLen])))) as Bw.
  unfold s32. cbv zeta.
  destruct (Z.ltb_spec (u32 (reply_r0 hostStep w
    (Req SYS_WRITE (ArgBlock [u32 lFile; u32 pData; u32 ulLen])))) (2 ^ 31));
  lia.
Qed.

(** A host that answers a write with r0 = 0xFFFFFFFC: the caller sees -4. *)
Lemma transfer_remainder_wraps_witness :
  evalState (lSemihostWrite (Script.host Probe.huge_remainder)
               3 0x20000100 12) Script.boot = 0xFFFFFFFC - 2 ^ 32 /\
  evalState (lSemihostWrite (Script.host Probe.huge_remainder)
               3 0x20000100 12) Script.boot < 0.
Proof.
  apply (@transfer_remainder_wraps _ (Script.host Probe.huge_remainder)
           Script.boot 3 0x20000100 12).
  vm_compute. discriminate.
Defined.

Lemma c8_of_u32 x : c8 (u32 x) = c8 x.
Proof.
  unfold c8, u32. apply Z.mod_mod_divide.
  exists (2 ^ 24). reflexivity.
Qed.

(** X6. The operations with an unsigned result return the low 32 bits of
    r0 (clock, time, tick frequency), and read-char returns the low 8 bits
    of r0; r1 and the higher bits of r0 have no influence. *)
Theorem unsigned_results_are_r0
    (H : Type) (hostStep : H -> Request -> Mem -> HostReply * H)
    (w : World H) :
  let r0 op := reply_r0 hostStep w (Layer.request_of op) in
  evalState (ulSemihostGetClock hostStep) w = r0 Layer.OpGetClock mod 2 ^ 32 /\
  evalState (ulSemihostGetTime hostStep) w = r0 Layer.OpGetTime mod 2 ^ 32 /\
  evalState (ulSemihostGetTickFreq hostStep) w =
    r0 Layer.OpGetTickFreq mod 2 ^ 32 /\
  evalState (cSemihostReadC hostStep) w = r0 Layer.OpReadC mod 2 ^ 8.
Proof.
  cbv zeta beta.
  unfold ulSemihostGetClock, ulSemihostGetTime, ulSemihostGetTickFreq,
    cSemihostReadC.
  rewrite !unsigned_result, decode_eval.
  rewrite <- c8_of_u32, ullSemihostReqOp_u32, c8_of_u32.
  repeat split; reflexivity.
Qed.

(** ** One call, one step of the host *)

Section StepFacts.

Variable H : Type.
Variable hostStep : H -> Request -> Mem -> HostReply * H.

Lemma ullSemihostReqOp_replay cmd arg (w : World H) :
  execState (ullSemihostReqOp hostStep cmd arg) w =
  replay hostStep [Req cmd arg] w.
Proof.
  unfold execState. rewrite ullSemihostReqOp_run. cbn [replay snd].
  destruct (hostStep (w_host w) (Req cmd arg) (w_mem w)) as [rep h'].
  reflexivity.
Qed.

Lemma replay_app l1 l2 :
  forall w : World H,
  replay hostStep (l1 ++ l2) w = replay hostStep l2 (replay hostStep l1 w).
Proof.
  induction l1 as [| rq l1 IH]; intros w; cbn [app replay].
  - reflexivity.
  - destruct (hostStep (w_host w) rq (w_mem w)) as [rep h']. apply IH.
Qed.

Lemma replay_trace l :
  forall w : World H, w_trace (replay hostStep l w) = w_trace w ++ l.
Proof.
  induction l as [| rq l IH]; intros w; cbn [replay].
  - symmetry. apply app_nil_r.
  - destruct (hostStep (w_host w) rq (w_mem w)) as [rep h'].
    rewrite IH. cbn [w_trace]. rewrite <- app_assoc. reflexivity.
Qed.

Lemma replay_keeps_memory l :
  keeps_memory hostStep ->
  forall w : World H, w_mem (replay hostStep l w) = w_mem w.
Proof.
  intros Hk. induction l as [| rq l IH]; intros w; cbn [replay].
  - reflexivity.
  - pose proof (Hk (w_host w) rq (w_mem w)) as E.
    destruct (hostStep (w_host w) rq (w_mem w)) as [rep h'].
    rewrite IH. exact E.
Qed.

(** Each public operation is its one transport call, as far as the world
    is concerned. *)
Lemma call_exec (op : Layer.Op) (w : World H) :
  execState (Layer.call hostStep op) w =
  replay hostStep [Layer.request_of op] w.
Proof.
  transitivity (execState (ullSemihostReqOp hostStep
                             (rq_cmd (Layer.request_of op))
                             (rq_arg (Layer.request_of op))) w);
    [| rewrite ullSemihostReqOp_replay;
       destruct (Layer.request_of op); reflexivity ].
  destruct op; cbn [Layer.call Layer.request_of rq_cmd rq_arg];
    unfold Layer.discard, vSemihostWriteC, vSemihostWrite0, cSemihostReadC,
      ulSemihostGetCmdline, lSemihostSystem, lSemihostOpen, bSemihostClose,
      lSemihostWrite, lSemihostRead, bSemihostSeek, bSemihostIsTTY,
      lSemihostGetFLen, lSemihostGetErrno, lSemihostRemove, lSemihostRename,
      bSemihostGetTmpnam, bSemihostIsError, ulSemihostGetClock,
      ulSemihostGetTime, bSemihostGetElapsed, ulSemihostGetTickFreq,
      bSemihostGetHeapInfo;
    rewrite ?u32_c8;
    first [ apply decode_exec
          | rewrite execState_bind, execState_ret; apply decode_exec
          | rewrite !execState_bind; reflexivity ].
Qed.

Lemma for_each_replay {A : Type} (g : A -> list Request)
    (body : A -> state (World H) unit) (l : list A) :
  (forall x w, execState (body x) w = replay hostStep (g x) w) ->
  forall w, execState (for_each l body) w =
            replay hostStep (flat_map g l) w.
Proof.
  intros Hbody. induction l as [| x l IH]; intros w.
  - reflexivity.
  - cbn [for_each flat_map]. rewrite execState_bind, IH, Hbody.
    symmetry. apply replay_app.
Qed.

End StepFacts.


(** X7. Operations called one after another put their requests on the
    wire in program order, one each, and the world afterwards is the one
    the host produces by serving exactly these requests: the layer itself
    keeps no state and touches neither the memory nor the log otherwise. *)
Theorem operations_in_sequence
    (H : Type) (hostStep : H -> Request -> Mem -> HostReply * H)
    (ops : list Layer.Op) (w : World H) :
  let w' := execState (for_each ops (Layer.call hostStep)) w in
  issued w w' = map Layer.request_of ops /\
  w' = replay hostStep (map Layer.request_of ops) w.
Proof.
  cbv zeta.
  assert (E : execState (for_each ops (Layer.call hostStep)) w =
              replay hostStep (map Layer.request_of ops) w).
  { rewrite <- flat_map_singleton.
    apply for_each_replay. intros op w0. apply call_exec. }
  rewrite E. split; [| reflexivity].
  apply issued_app, replay_trace.
Qed.


(** A negative handle, a length beyond 32 bits and a character beyond one
    byte, as they go out. *)
Example operations_send_words_run :
  issued Script.boot
    (execState (for_each [Layer.OpWrite (-1) 0x20000000 (2 ^ 32 + 5);
                          Layer.OpWriteC 0x141]
                  (Layer.call (Script.host Script.good))) Script.boot) =
  [ Req SYS_WRITE (ArgBlock [0xFFFFFFFF; 0x20000000; 5]);
    Req SYS_WRITEC (ArgBlock [0x41]) ].
Proof. reflexivity. Qed.

(** X9. Validity of the heap record is read from memory, so with a host
    that writes nothing the answer is decided by what the record held
    before the call: a record that was already filled is reported valid,
    a zeroed one invalid. *)
Theorem bSemihostGetHeapInfo_stale_record
    (H : Type) (hostStep : H -> Request -> Mem -> HostReply * H)
    (psInfo : Z) (w : World H) :
  keeps_memory hostStep ->
  (evalState (bSemihostGetHeapInfo hostStep psInfo) w = true <->
   all_fields_set (read_HeapInfo (w_mem w) psInfo)).
Proof.
  intros Hk. unfold evalState. rewrite bSemihostGetHeapInfo_run. cbn [fst].
  unfold heap_after.
  rewrite ullSemihostReqOp_replay, (replay_keeps_memory _ Hk).
  unfold all_fields_set.
  rewrite !andb_true_iff, !negb_true_iff, !Z.eqb_neq. tauto.
Qed.

(** The host writes nothing; the record filled beforehand counts as valid
    and the zeroed one does not. *)
Lemma bSemihostGetHeapInfo_stale_record_witness :
  evalState (bSemihostGetHeapInfo Probe.quiet 0x20000400) Probe.stale = true /\
  evalState (bSemihostGetHeapInfo Probe.quiet 0x20000400) Script.boot = false.
Proof.
  split; [| reflexivity].
  apply (proj2 (@bSemihostGetHeapInfo_stale_record _ Probe.quiet
                  0x20000400 Probe.stale (fun _ _ _ => eq_refl))).
  unfold all_fields_set. repeat split; vm_compute; discriminate.
Defined.

(** ** The dump as the host sees it *)

Section DumpFacts.

Variable H : Type.
Variable hostStep : H -> Request -> Mem -> HostReply * H.
Variable enc : cstring -> list Chunk.

Lemma vDumpCb_replay pData uLength lFile (w : World H) :
  execState (vDumpCb hostStep pData uLength lFile) w =
  replay hostStep [write_req lFile (MkChunk pData uLength)] w.
Proof.
  unfold vDumpCb, lSemihostWrite.
  rewrite execState_bind, execState_ret, decode_exec.
  apply ullSemihostReqOp_replay.
Qed.

Lemma vFilenameCb_replay pszFname lFile (w : World H) :
  execState (vFilenameCb hostStep enc pszFname lFile) w =
  replay hostStep (map (write_req lFile) (enc pszFname)) w.
Proof.
  unfold vFilenameCb, __gcov_filename_to_gcfn.
  rewrite <- flat_map_singleton.
  apply for_each_replay. intros [p n] w0. apply vDumpCb_replay.
Qed.

Lemma gcda_pass_replay d lFile :
  forall w : World H,
  execState (gcda_pass d (vDumpCb hostStep) pAllocateCb lFile) w =
  replay hostStep (map (write_req lFile) (gcda_chunks NULL d)) w.
Proof.
  induction d as [| [p n] k IH | size k IH]; intros w.
  - reflexivity.
  - cbn [gcda_pass gcda_chunks map ch_data ch_len].
    rewrite execState_bind, IH, vDumpCb_replay.
    rewrite <- replay_app. reflexivity.
  - cbn [gcda_pass gcda_chunks]. apply IH.
Qed.

Lemma __gcov_info_to_gcda_replay info lFile (w : World H) :
  execState (__gcov_info_to_gcda info (vFilenameCb hostStep enc)
               (vDumpCb hostStep) pAllocateCb lFile) w =
  replay hostStep (map (write_req lFile) (filename_pass enc info) ++
                   map (write_req lFile) (data_pass info)) w.
Proof.
  unfold __gcov_info_to_gcda.
  rewrite execState_bind, gcda_pass_replay, vFilenameCb_replay.
  rewrite <- replay_app. reflexivity.
Qed.

Lemma lSemihostOpen_replay pszPath (w : World H) :
  execState (lSemihostOpen hostStep pszPath 5) w =
  replay hostStep [open_req pszPath] w.
Proof.
  unfold lSemihostOpen. rewrite decode_exec. apply ullSemihostReqOp_replay.
Qed.

Lemma bSemihostClose_replay lFile (w : World H) :
  execState (bSemihostClose hostStep lFile) w =
  replay hostStep [close_req lFile] w.
Proof.
  unfold bSemihostClose. rewrite decode_exec. apply ullSemihostReqOp_replay.
Qed.

Lemma Coverage_vDump_replay registry pszFilename (w : World H) :
  execState (Coverage_vDump hostStep enc registry pszFilename) w =
  replay hostStep
    (issued w (execState (Coverage_vDump hostStep enc registry pszFilename) w))
    w.
Proof.
  rewrite Coverage_vDump_issued. cbv zeta.
  unfold Coverage_vDump.
  rewrite execState_bind, execState_bind.
  rewrite execState_bind, execState_ret.
  rewrite bSemihostClose_replay.
  rewrite (@for_each_replay _ hostStep _ _ _ _
             (fun info w0 => __gcov_info_to_gcda_replay info _ w0)).
  rewrite lSemihostOpen_replay.
  rewrite <- !replay_app. reflexivity.
Qed.

End DumpFacts.

(** X10. A dump changes the world only through its requests: the host
    state and the memory after [Coverage_vDump] are exactly those the host
    produces by serving the issued requests in order.  The pipeline keeps
    no state of its own and writes no target memory. *)
Theorem Coverage_vDump_only_requests
    (H : Type) (hostStep : H -> Request -> Mem -> HostReply * H)
    (enc : cstring -> list Chunk) (registry : list gcov_info)
    (pszFilename : cstring) (w : World H) :
  let w' := execState (Coverage_vDump hostStep enc registry pszFilename) w in
  w' = replay hostStep (issued w w') w /\
  w_trace w' = w_trace w ++ issued w w'.
Proof.
  cbv zeta. split.
  - apply Coverage_vDump_replay.
  - rewrite Coverage_vDump_replay at 1. apply replay_trace.
Qed.

(** X11. With a host that answers without writing target memory, a dump
    leaves the memory as it was, whatever the registry holds. *)
Theorem Coverage_vDump_keeps_memory
    (H : Type) (hostStep : H -> Request -> Mem -> HostReply * H)
    (enc : cstring -> list Chunk) (registry : list gcov_info)
    (pszFilename : cstring) (w : World H) :
  keeps_memory hostStep ->
  w_mem (execState (Coverage_vDump hostStep enc registry pszFilename) w) =
  w_mem w.
Proof.
  intros Hk. rewrite Coverage_vDump_replay.
  apply replay_keeps_memory, Hk.
Qed.

Lemma Coverage_vDump_keeps_memory_witness :
  let w' := execState (Coverage_vDump Probe.quiet Script.enc Script.registry
                         Script.out_file) Probe.marked in
  length (w_trace w') = 8%nat /\
  w_mem w' = w_mem Probe.marked.
Proof.
  split; [reflexivity |].
  apply (@Coverage_vDump_keeps_memory _ Probe.quiet Script.enc
           Script.registry Script.out_file Probe.marked).
  intros h rq m. reflexivity.
Defined.

(** X12. The handle survives the trip through [int32_t]: on a host that
    leaves target memory alone while it serves the writes, the first word
    of every write of a dump, and the word of its close, is bit for bit
    the low word of r0 with which the host answered the open. *)
Theorem Coverage_vDump_handle_round_trip
    (H : Type) (hostStep : H -> Request -> Mem -> HostReply * H)
    (enc : cstring -> list Chunk) (registry : list gcov_info)
    (pszFilename : cstring) (w : World H) :
  let h := reply_r0 hostStep w (open_req pszFilename) mod 2 ^ 32 in
  leaves_memory_on hostStep SYS_WRITE ->
  issued w (execState (Coverage_vDump hostStep enc registry pszFilename) w) =
  open_req pszFilename ::
  flat_map (fun info =>
              map (fun c => Req SYS_WRITE
                              (ArgBlock [h; u32 (ch_data c); u32 (ch_len c)]))
                (record_chunks enc info)) registry ++
  [Req SYS_CLOSE (ArgBlock [h])].
Proof.
  cbv zeta. intros Hframe. rewrite Coverage_vDump_issued. cbv zeta.
  unfold lSemihostOpen. rewrite signed_result.
  unfold close_req, write_req, record_chunks.
  rewrite u32_s32. fold (open_req pszFilename).
  f_equal. f_equal.
  apply flat_map_ext. intros info. rewrite map_app. reflexivity.
Qed.

(** The host answers the open with r0 = -1; the writes and the close go
    out with the word 0xFFFFFFFF. *)
Lemma Coverage_vDump_handle_round_trip_witness :
  issued Script.boot
    (execState (Coverage_vDump (Script.host Script.no_file) Script.enc
                  [Script.unit_a] Script.out_file) Script.boot) =
  [ Req SYS_OPEN (ArgBlock [0x08002000; 5; 18]);
    Req SYS_WRITE (ArgBlock [0xFFFFFFFF; 0x08001000; 10]);
    Req SYS_WRITE (ArgBlock [0xFFFFFFFF; 0x20000100; 12]);
    Req SYS_WRITE (ArgBlock [0xFFFFFFFF; 0x20000200; 64]);
    Req SYS_CLOSE (ArgBlock [0xFFFFFFFF]) ].
Proof.
  rewrite (@Coverage_vDump_handle_round_trip _ (Script.host Script.no_file)
             Script.enc [Script.unit_a] Script.out_file Script.boot
             (Script_host_leaves_writes Script.no_file)).
  reflexivity.
Defined.

(** X13. Every word of every request of a dump fits in 32 bits. *)
Theorem Coverage_vDump_sends_words
    (H : Type) (hostStep : H -> Request -> Mem -> HostReply * H)
    (enc : cstring -> list Chunk) (registry : list gcov_info)
    (pszFilename : cstring) (w : World H) :
  Forall wire_ok
    (issued w (execState
                 (Coverage_vDump hostStep enc registry pszFilename) w)).
Proof.
  rewrite Coverage_vDump_issued. cbv zeta.
  assert (W : forall f c, wire_ok (write_req f c)).
  { intros f c. unfold wire_ok. cbn [write_req rq_arg arg_words].
    repeat (apply Forall_cons; [apply u32_range |]). apply Forall_nil. }
  apply Forall_cons.
  - unfold wire_ok. cbn [open_req rq_arg arg_words].
    repeat (apply Forall_cons;
            [first [apply u32_range | split; [lia | reflexivity]] |]).
    apply Forall_nil.
  - apply Forall_app. split.
    + apply Forall_flat_map, Forall_forall. intros info _.
      apply Forall_app. split; apply Forall_forall; intros rq Hin;
        apply in_map_iff in Hin; destruct Hin as [c [<- _]]; apply W.
    + apply Forall_cons; [| apply Forall_nil].
      unfold wire_ok. cbn [close_req rq_arg arg_words].
      apply Forall_cons; [apply u32_range | apply Forall_nil].
Qed.
